(** * A shallow embedding of the mail client: [auth.py] and [email_client.py]

    The two Python modules are glue over three external libraries: [msal]
    (token acquisition), [requests] (HTTP) and [icecream] ([ic], the only
    output channel).  The embedding keeps the code of the repository and
    abstracts the libraries as an environment of response functions.  Every
    library call is recorded, in program order, in a log, so that statements
    such as "the interactive flow is not invoked" or "exactly one POST is
    issued" are statements about the log. *)

From Stdlib Require Import String Ascii List ZArith Bool Lia DecimalString.
Import ListNotations.
Local Open Scope list_scope.
Local Open Scope Z_scope.
Local Open Scope string_scope.

(** ** Python values *)

(** The values that cross the library boundaries: MSAL result dictionaries
    and decoded JSON.  A [dict] is kept as an association list in insertion
    order (Python dictionaries are ordered, their keys unique); numbers are
    integers. *)
#[warnings="-register-all"]
Inductive pyval : Type :=
| PNone
| PBool (b : bool)
| PInt (z : Z)
| PStr (s : string)
| PList (l : list pyval)
| PDict (d : list (string * pyval)).

Definition pydict : Type := list (string * pyval).

(** Exceptions that the modelled code can raise or let through. *)
Inductive exn : Type :=
| KeyError (key : string)
| TypeError
| AttributeError
| PyException (args : list pyval)
| LibraryError (what : string).

Inductive outcome (A : Type) : Type :=
| Ret (a : A)
| Raise (e : exn).
Arguments Ret {A} a.
Arguments Raise {A} e.

(** ** Dictionary and value primitives *)

Fixpoint dict_lookup (k : string) (d : pydict) : option pyval :=
  match d with
  | [] => None
  | (k', v) :: d' => if String.eqb k k' then Some v else dict_lookup k d'
  end.

(** [k in d] *)
Definition dict_contains (k : string) (d : pydict) : bool :=
  match dict_lookup k d with Some _ => true | None => false end.

(** [d[k]] *)
Definition dict_getitem (d : pydict) (k : string) : outcome pyval :=
  match dict_lookup k d with Some v => Ret v | None => Raise (KeyError k) end.

(** [d.get(k)] and [d.get(k, default)] *)
Definition dict_get (d : pydict) (k : string) (default : pyval) : pyval :=
  match dict_lookup k d with Some v => v | None => default end.

(** [v[k]] for a string key [k] on an arbitrary value: only a dictionary
    accepts a string subscript. *)
Definition py_getitem (v : pyval) (k : string) : outcome pyval :=
  match v with
  | PDict d => dict_getitem d k
  | _ => Raise TypeError
  end.

(** [v.get(k, default)] on an arbitrary value: only a dictionary has the
    method. *)
Definition py_get (v : pyval) (k : string) (default : pyval) : outcome pyval :=
  match v with
  | PDict d => Ret (dict_get d k default)
  | _ => Raise AttributeError
  end.

Fixpoint chars (s : string) : list pyval :=
  match s with
  | EmptyString => []
  | String c s' => PStr (String c EmptyString) :: chars s'
  end.

(** The items a [for] loop visits: the elements of a list, the keys of a
    dictionary, the characters of a string; other values are not iterable. *)
Definition py_iter (v : pyval) : outcome (list pyval) :=
  match v with
  | PList l => Ret l
  | PDict d => Ret (map (fun kv => PStr (fst kv)) d)
  | PStr s => Ret (chars s)
  | _ => Raise TypeError
  end.

(** Truth value of what [acquire_token_silent] returns: [None] and the empty
    dictionary are false. *)
Definition truthy (r : option pydict) : bool :=
  match r with
  | Some (_ :: _) => true
  | _ => false
  end.

(** [r[k]] on what [acquire_token_silent] returns: [None] has no
    subscript. *)
Definition opt_getitem (r : option pydict) (k : string) : outcome pyval :=
  match r with
  | Some d => dict_getitem d k
  | None => Raise TypeError
  end.

Definition str_of_int (z : Z) : string := NilZero.string_of_int (Z.to_int z).

(** [s * n] *)
Fixpoint str_repeat (s : string) (n : nat) : string :=
  match n with
  | O => ""
  | S n' => s ++ str_repeat s n'
  end.

(** ** The outside world *)

(** The application handle built by [msal.ConfidentialClientApplication]. *)
Record msal_app : Type := {
  app_client_id : string;
  app_authority : string;
  app_client_credentials : string }.

Definition http_headers : Type := list (string * string).

(** What the code reads of a [requests] response.  [resp_json] is what
    [response.json()] gives: the decoded body, or the decoding error. *)
Record response : Type := {
  status_code : Z;
  text : string;
  resp_json : outcome pyval }.

(** Library calls, as they appear in the log. *)
Inductive event : Type :=
| MsalNewApp (app : msal_app)
| MsalGetAccounts
| MsalSilent (scopes : list string) (account : pydict)
| MsalInteractive (scopes : list string) (redirect_uri : string)
| HttpPost (url : string) (headers : http_headers) (json : pyval)
| HttpGet (url : string) (headers : http_headers)
| Ic (line : string).

(** The libraries' answers.  Each operation of the client consults each of
    them at most once, so a response function loses nothing against a
    stateful one.  Any of them may raise. *)
Record env : Type := {
  env_get_accounts : msal_app -> outcome (list pydict);
  env_acquire_token_silent :
    msal_app -> list string -> pydict -> outcome (option pydict);
  env_acquire_token_interactive :
    msal_app -> list string -> string -> outcome pydict;
  env_post : string -> http_headers -> pyval -> outcome response;
  env_get : string -> http_headers -> outcome response }.

(** ** Computations: a result or an exception, and the log of library calls *)

Definition M (A : Type) : Type := outcome A * list event.

Definition ret {A} (a : A) : M A := (Ret a, []).

Definition raise {A} (e : exn) : M A := (Raise e, []).

Definition bind {A B} (m : M A) (k : A -> M B) : M B :=
  match m with
  | (Ret a, log) => let (r, log') := k a in (r, (log ++ log')%list)
  | (Raise e, log) => (Raise e, log)
  end.

Definition emit (e : event) : M unit := (Ret tt, [e]).

Definition lift {A} (o : outcome A) : M A := (o, []).

(** A library call: logged, then answered by the environment. *)
Definition call {A} (e : event) (answer : outcome A) : M A := (answer, [e]).

Declare Scope py_scope.
Delimit Scope py_scope with py.
Notation "x <- m ;; k" := (bind m (fun x => k))
  (at level 61, m at next level, right associativity) : py_scope.
Notation "m ;; k" := (bind m (fun _ => k))
  (at level 61, right associativity) : py_scope.
Local Open Scope py_scope.

(** [for x in items: body x] *)
Fixpoint for_each {A} (items : list A) (body : A -> M unit) : M unit :=
  match items with
  | [] => ret tt
  | x :: rest => body x ;; for_each rest body
  end.

Definition result_of {A} (m : M A) : outcome A := fst m.
Definition log_of {A} (m : M A) : list event := snd m.

(** ** Queries on logs *)

Definition is_interactive (e : event) : bool :=
  match e with MsalInteractive _ _ => true | _ => false end.

Definition is_silent (e : event) : bool :=
  match e with MsalSilent _ _ => true | _ => false end.

Definition is_http (e : event) : bool :=
  match e with HttpPost _ _ _ | HttpGet _ _ => true | _ => false end.

(** The lines printed through [ic], in order. *)
Fixpoint ic_lines (log : list event) : list string :=
  match log with
  | [] => []
  | Ic s :: log' => s :: ic_lines log'
  | _ :: log' => ic_lines log'
  end.

(** The HTTP requests issued, in order. *)
Definition http_requests (log : list event) : list event := filter is_http log.

Definition interactive_invoked (log : list event) : bool :=
  existsb is_interactive log.

Definition silent_invoked (log : list event) : bool :=
  existsb is_silent log.

(** ** The program *)

Section Client.

(** Python's [repr] of a list or of a dictionary, which is what formatting
    one inside an f-string prints.  It belongs to the interpreter, not to
    the repository; the properties below hold whatever it is. *)
Variable py_repr : pyval -> string.

Variable E : env.

(** [f"{v}"] *)
Definition py_str (v : pyval) : string :=
  match v with
  | PNone => "None"
  | PBool true => "True"
  | PBool false => "False"
  | PInt z => str_of_int z
  | PStr s => s
  | PList _ | PDict _ => py_repr v
  end.

(** *** auth.py *)

Definition CLIENT_ID : string := "4dcd6afc-b59f-4215-95f7-4b6c2c2d83e1".
Definition TENANT_ID : string := "2080ad1c-4ca1-4961-98ba-51996277c9ba".
Definition CLIENT_SECRET : string := "fbc165d4-1a2f-44c2-9522-62fb7ff5c7cc".
Definition AUTHORITY : string :=
  "https://login.microsoftonline.com/" ++ TENANT_ID.
Definition REDIRECT_URI : string := "http://localhost:5000/callback".
Definition SCOPE : list string := ["Mail.ReadWrite"; "Mail.Send"].

(** The handle both functions of [auth.py] build. *)
Definition configured_app : msal_app :=
  {| app_client_id := CLIENT_ID;
     app_authority := AUTHORITY;
     app_client_credentials := CLIENT_SECRET |}.

Definition ConfidentialClientApplication
    (client_id authority client_credentials : string) : M msal_app :=
  let app := {| app_client_id := client_id;
                app_authority := authority;
                app_client_credentials := client_credentials |} in
  emit (MsalNewApp app) ;; ret app.

Definition get_access_token : M pyval :=
  app <- ConfidentialClientApplication CLIENT_ID AUTHORITY CLIENT_SECRET ;;
  result <- call (MsalInteractive SCOPE REDIRECT_URI)
                 (env_acquire_token_interactive E app SCOPE REDIRECT_URI) ;;
  if dict_contains "access_token" result
  then lift (dict_getitem result "access_token")
  else raise (PyException [PStr "could not authenticate: ";
                           dict_get result "error_description" PNone]).

Definition get_cached_access_token : M pyval :=
  app <- ConfidentialClientApplication CLIENT_ID AUTHORITY CLIENT_SECRET ;;
  accounts <- call MsalGetAccounts (env_get_accounts E app) ;;
  match accounts with
  | account0 :: _ =>
      result <- call (MsalSilent SCOPE account0)
                     (env_acquire_token_silent E app SCOPE account0) ;;
      if truthy result
      then lift (opt_getitem result "access_token")
      else get_access_token
  | [] => get_access_token
  end.

(** *** email_client.py *)

Definition GRAPH_API_ENDPOINT : string := "https://graph.microsoft.com/v1.0".

Definition send_email (recipient subject body : pyval) : M unit :=
  access_token <- get_access_token ;;
  let url := GRAPH_API_ENDPOINT ++ "/me/sendMail" in
  let headers :=
    [("Authorization", "Bearer " ++ py_str access_token);
     ("Content-Type", "application/json")] in
  let payload :=
    PDict
      [("message",
        PDict
          [("subject", subject);
           ("body", PDict [("contentType", PStr "Text"); ("content", body)]);
           ("toRecipients",
            PList [PDict [("emailAddress", PDict [("address", recipient)])]])]);
       ("saveToSentItems", PStr "true")] in
  response <- call (HttpPost url headers payload) (env_post E url headers payload) ;;
  if (status_code response =? 202)%Z
  then emit (Ic "email sent successfully")
  else emit (Ic ("error sending email: " ++ str_of_int (status_code response)
                 ++ ", " ++ text response)).

(** The body of the loop over the messages. *)
Definition show_email (email : pyval) : M unit :=
  from <- lift (py_getitem email "from") ;;
  emailAddress <- lift (py_getitem from "emailAddress") ;;
  address <- lift (py_getitem emailAddress "address") ;;
  emit (Ic ("From: " ++ py_str address)) ;;
  subject <- lift (py_getitem email "subject") ;;
  emit (Ic ("Subject: " ++ py_str subject)) ;;
  bodyPreview <- lift (py_getitem email "bodyPreview") ;;
  emit (Ic ("Body: " ++ py_str bodyPreview)) ;;
  emit (Ic (str_repeat "-" 40)).

Definition get_inbox_emails : M unit :=
  access_token <- get_access_token ;;
  let url := GRAPH_API_ENDPOINT ++ "/me/messages" in
  let headers := [("Authorization", "Bearer " ++ py_str access_token)] in
  response <- call (HttpGet url headers) (env_get E url headers) ;;
  if (status_code response =? 200)%Z
  then
    json <- lift (resp_json response) ;;
    emails <- lift (py_get json "value" (PList [])) ;;
    items <- lift (py_iter emails) ;;
    for_each items show_email
  else emit (Ic ("Error fetching emails: " ++ str_of_int (status_code response)
                 ++ ", " ++ text response)).

(** ** Vocabulary of the specification *)

(** The JSON payload that the "send mail" resource expects. *)
Definition expected_payload (recipient subject body : pyval) : pyval :=
  PDict
    [("message",
      PDict
        [("subject", subject);
         ("body", PDict [("contentType", PStr "Text"); ("content", body)]);
         ("toRecipients",
          PList [PDict [("emailAddress", PDict [("address", recipient)])]])]);
     ("saveToSentItems", PStr "true")].

(** A message projection: sender address, subject, body preview. *)
Definition projection : Type := (pyval * pyval * pyval)%type.

(** The projection of a well-formed message object: [from.emailAddress.address],
    [subject] and [bodyPreview] are all there.  [None] for anything else. *)
Definition message_fields (m : pyval) : option projection :=
  match m with
  | PDict d =>
      match dict_lookup "from" d with
      | Some (PDict f) =>
          match dict_lookup "emailAddress" f with
          | Some (PDict ea) =>
              match dict_lookup "address" ea,
                    dict_lookup "subject" d,
                    dict_lookup "bodyPreview" d with
              | Some a, Some s, Some p => Some (a, s, p)
              | _, _, _ => None
              end
          | _ => None
          end
      | _ => None
      end
  | _ => None
  end.

(** The lines one projection is displayed as. *)
Definition projection_lines (p : projection) : list string :=
  let '(address, subject, preview) := p in
  ["From: " ++ py_str address;
   "Subject: " ++ py_str subject;
   "Body: " ++ py_str preview;
   "----------------------------------------"].

(** Whether a displayed line belongs to a projection. *)
Definition is_projection_line (s : string) : bool :=
  prefix "From: " s || prefix "Subject: " s || prefix "Body: " s
  || (s =? "----------------------------------------").

End Client.

(** ** Sample environments, for closed instances of the theorems *)

(** A stand-in for the interpreter's [repr] of containers. *)
Definition sample_repr (v : pyval) : string := "<container>".

Definition sample_account : pydict := [("username", PStr "user@example.org")].

Definition sample_response (status : Z) (body : string) (json : outcome pyval)
    : response :=
  {| status_code := status; text := body; resp_json := json |}.

Definition two_messages : list pyval :=
  [PDict [("subject", PStr "first");
          ("bodyPreview", PStr "hello");
          ("from", PDict [("emailAddress",
                           PDict [("name", PStr "Ann");
                                  ("address", PStr "ann@example.org")])])];
   PDict [("from", PDict [("emailAddress",
                           PDict [("address", PStr "bob@example.org")])]);
          ("subject", PStr "second");
          ("bodyPreview", PStr "bye");
          ("isRead", PBool false)]].

(** An identity provider with one cached account whose silent
    reauthentication yields a token, and a mail API that accepts everything. *)
Definition env_cached : env :=
  {| env_get_accounts := fun _ => Ret [sample_account];
     env_acquire_token_silent :=
       fun _ _ _ => Ret (Some [("access_token", PStr "cached-token")]);
     env_acquire_token_interactive :=
       fun _ _ _ => Ret [("access_token", PStr "fresh-token")];
     env_post := fun _ _ _ => Ret (sample_response 202 "" (Raise (LibraryError "JSONDecodeError")));
     env_get :=
       fun _ _ => Ret (sample_response 200 "{...}"
                         (Ret (PDict [("value", PList two_messages)]))) |}.

(** No cached account; the interactive flow is refused; the mail API rejects
    every request. *)
Definition env_denied : env :=
  {| env_get_accounts := fun _ => Ret [];
     env_acquire_token_silent := fun _ _ _ => Ret None;
     env_acquire_token_interactive :=
       fun _ _ _ => Ret [("error", PStr "access_denied");
                         ("error_description", PStr "consent was denied")];
     env_post := fun _ _ _ => Ret (sample_response 400 "Bad Request" (Raise (LibraryError "JSONDecodeError")));
     env_get := fun _ _ => Ret (sample_response 401 "Unauthorized" (Raise (LibraryError "JSONDecodeError"))) |}.

(** A cached account whose silent reauthentication answers with an error
    dictionary; interactive acquisition works; the mail API rejects the send
    and answers the listing with an object that has no [value]. *)
Definition env_silent_error : env :=
  {| env_get_accounts := fun _ => Ret [sample_account];
     env_acquire_token_silent :=
       fun _ _ _ => Ret (Some [("error", PStr "invalid_grant")]);
     env_acquire_token_interactive :=
       fun _ _ _ => Ret [("access_token", PStr "fresh-token")];
     env_post := fun _ _ _ => Ret (sample_response 400 "Bad Request" (Raise (LibraryError "JSONDecodeError")));
     env_get :=
       fun _ _ => Ret (sample_response 200 "{}" (Ret (PDict []))) |}.

(** Interactive acquisition works; the listing is refused. *)
Definition env_unauthorized : env :=
  {| env_get_accounts := fun _ => Ret [];
     env_acquire_token_silent := fun _ _ _ => Ret None;
     env_acquire_token_interactive :=
       fun _ _ _ => Ret [("access_token", PStr "fresh-token")];
     env_post := fun _ _ _ => Ret (sample_response 202 "" (Raise (LibraryError "JSONDecodeError")));
     env_get := fun _ _ => Ret (sample_response 401 "Unauthorized" (Raise (LibraryError "JSONDecodeError"))) |}.

(** ** The entry point *)

(** The [__main__] block of [email_client.py]: one send, then one listing.
    The libraries may answer the second operation differently from the
    first: [E1] holds their answers during the send, [E2] during the
    listing. *)
Definition main (py_repr : pyval -> string) (E1 E2 : env) : M unit :=
  send_email py_repr E1
    (PStr "ottobjonas03@outlook.com")
    (PStr "test email")
    (PStr "this is a test email from an email client i developed") ;;
  get_inbox_emails py_repr E2.

(** ** More queries on logs *)






(** A JSON value a [for] loop cannot run over. *)
Definition is_scalar (v : pyval) : bool :=
  match v with
  | PNone | PBool _ | PInt _ => true
  | _ => false
  end.


(** ** More sample environments *)

(** A cached account; the silent call fails in the library; interactive
    acquisition works; the mail API cannot be reached for a send and
    answers the listing with a body that is not JSON. *)
Definition env_offline : env :=
  {| env_get_accounts := fun _ => Ret [sample_account];
     env_acquire_token_silent :=
       fun _ _ _ => Raise (LibraryError "ConnectionError");
     env_acquire_token_interactive :=
       fun _ _ _ => Ret [("access_token", PStr "fresh-token")];
     env_post := fun _ _ _ => Raise (LibraryError "ConnectionError");
     env_get :=
       fun _ _ => Ret (sample_response 200 "<html>"
                         (Raise (LibraryError "JSONDecodeError"))) |}.

(** The interactive flow fails inside the library. *)
Definition env_cancelled : env :=
  {| env_get_accounts := fun _ => Ret [];
     env_acquire_token_silent := fun _ _ _ => Ret None;
     env_acquire_token_interactive :=
       fun _ _ _ => Raise (LibraryError "TimeoutError");
     env_post := fun _ _ _ => Ret (sample_response 202 "" (Raise (LibraryError "JSONDecodeError")));
     env_get := fun _ _ => Ret (sample_response 200 "{}" (Ret (PDict []))) |}.

(** A cached account for which the silent call finds nothing; interactive
    acquisition works; the listing is answered with [{"value": null}]. *)
Definition env_silent_miss : env :=
  {| env_get_accounts :=
       fun _ => Ret [sample_account; [("username", PStr "other@example.org")]];
     env_acquire_token_silent := fun _ _ _ => Ret None;
     env_acquire_token_interactive :=
       fun _ _ _ => Ret [("access_token", PStr "fresh-token")];
     env_post := fun _ _ _ => Ret (sample_response 400 "Bad Request" (Raise (LibraryError "JSONDecodeError")));
     env_get :=
       fun _ _ => Ret (sample_response 200 "{...}"
                         (Ret (PDict [("value", PNone)]))) |}.

(** A message without sender, and one with a sender but no subject. *)
Definition message_without_sender : pydict :=
  [("subject", PStr "draft"); ("bodyPreview", PStr "...")].

Definition message_without_subject : pydict :=
  [("from", PDict [("emailAddress", PDict [("address", PStr "eve@example.org")])]);
   ("bodyPreview", PStr "...")].

(** The listing is answered with [items] as the [value]. *)
Definition env_inbox (items : list pyval) : env :=
  {| env_get_accounts := fun _ => Ret [];
     env_acquire_token_silent := fun _ _ _ => Ret None;
     env_acquire_token_interactive :=
       fun _ _ _ => Ret [("access_token", PStr "fresh-token")];
     env_post := fun _ _ _ => Ret (sample_response 202 "" (Raise (LibraryError "JSONDecodeError")));
     env_get :=
       fun _ _ => Ret (sample_response 200 "{...}"
                         (Ret (PDict [("value", PList items)]))) |}.

(** ** Properties *)

Section Properties.

Variable py_repr : pyval -> string.
Variable E : env.

(** *** The token provider *)

Lemma get_access_token_ok (r : pydict) (tok : pyval) :
  env_acquire_token_interactive E configured_app SCOPE REDIRECT_URI = Ret r ->
  dict_lookup "access_token" r = Some tok ->
  get_access_token E =
    (Ret tok, [MsalNewApp configured_app; MsalInteractive SCOPE REDIRECT_URI]).
Proof.
  intros Hi Hk.
  unfold get_access_token, ConfidentialClientApplication, call, emit, ret, bind.
  fold configured_app. rewrite Hi.
  unfold dict_contains, dict_getitem, lift. rewrite Hk. reflexivity.
Qed.

Lemma get_access_token_no_token (r : pydict) :
  env_acquire_token_interactive E configured_app SCOPE REDIRECT_URI = Ret r ->
  dict_lookup "access_token" r = None ->
  get_access_token E =
    (Raise (PyException [PStr "could not authenticate: ";
                         dict_get r "error_description" PNone]),
     [MsalNewApp configured_app; MsalInteractive SCOPE REDIRECT_URI]).
Proof.
  intros Hi Hk.
  unfold get_access_token, ConfidentialClientApplication, call, emit, ret, bind.
  fold configured_app. rewrite Hi.
  unfold dict_contains, raise. rewrite Hk. reflexivity.
Qed.

(** Whatever the identity provider answers, [get_access_token] starts the
    interactive flow, and nothing else of MSAL. *)
Lemma get_access_token_log :
  log_of (get_access_token E) =
    [MsalNewApp configured_app; MsalInteractive SCOPE REDIRECT_URI].
Proof.
  unfold get_access_token, ConfidentialClientApplication, call, emit, ret, bind.
  fold configured_app.
  destruct (env_acquire_token_interactive E configured_app SCOPE REDIRECT_URI)
    as [r | e]; [ | reflexivity ].
  unfold dict_contains, dict_getitem, lift, raise.
  destruct (dict_lookup "access_token" r); reflexivity.
Qed.

Lemma bind_log {A B} (m : M A) (k : A -> M B) (a : A) (log : list event) :
  m = (Ret a, log) ->
  bind m k = (fst (k a), (log ++ snd (k a))%list).
Proof. intros ->. unfold bind. destruct (k a); reflexivity. Qed.

Lemma bind_raise {A B} (m : M A) (k : A -> M B) (e : exn) (log : list event) :
  m = (Raise e, log) -> bind m k = (Raise e, log).
Proof. intros ->. reflexivity. Qed.

Lemma bind_log_prefix {A B} (m : M A) (k : A -> M B) :
  exists rest : list event, log_of (bind m k) = (log_of m ++ rest)%list.
Proof.
  destruct m as [ [ a | e ] log ]; unfold bind, log_of.
  - destruct (k a) as [ r log' ]. exists log'. reflexivity.
  - exists []. cbn [snd]. rewrite app_nil_r. reflexivity.
Qed.

(** Both mail operations begin by starting the interactive flow, whatever
    the identity provider has cached. *)
Lemma mail_operations_start_interactive :
  (forall recipient subject body, exists rest : list event,
      log_of (send_email py_repr E recipient subject body) =
        MsalNewApp configured_app
        :: MsalInteractive SCOPE REDIRECT_URI :: rest)
  /\ (exists rest : list event,
        log_of (get_inbox_emails py_repr E) =
          MsalNewApp configured_app
          :: MsalInteractive SCOPE REDIRECT_URI :: rest).
Proof.
  split; [ intros recipient subject body; unfold send_email
         | unfold get_inbox_emails ];
    match goal with
    | |- context [ bind ?m ?k ] =>
        destruct (bind_log_prefix m k) as [ rest Hrest ]
    end;
    rewrite Hrest, get_access_token_log; exists rest; reflexivity.
Qed.

Ltac auth_prefix :=
  unfold get_cached_access_token, ConfidentialClientApplication,
    call, emit, ret, bind;
  fold configured_app.

(** C2: with a cached account whose silent reauthentication returns a token,
    [get_cached_access_token] returns that token, and the log shows the
    silent call and no interactive one. *)
Theorem cached_token_returned_without_interactive
    (account : pydict) (others : list pydict) (d : pydict) (tok : pyval) :
  env_get_accounts E configured_app = Ret (account :: others) ->
  env_acquire_token_silent E configured_app SCOPE account = Ret (Some d) ->
  dict_lookup "access_token" d = Some tok ->
  get_cached_access_token E =
    (Ret tok,
     [MsalNewApp configured_app; MsalGetAccounts; MsalSilent SCOPE account])
  /\ interactive_invoked (log_of (get_cached_access_token E)) = false.
Proof.
  intros Ha Hs Hk.
  assert (Hrun : get_cached_access_token E =
    (Ret tok,
     [MsalNewApp configured_app; MsalGetAccounts; MsalSilent SCOPE account])).
  { auth_prefix. rewrite Ha, Hs.
    destruct d as [ | kv d' ]; [ discriminate Hk | ].
    unfold truthy, lift, opt_getitem, dict_getitem. rewrite Hk. reflexivity. }
  split; [ exact Hrun | rewrite Hrun; reflexivity ].
Qed.

(** C8: with no cached account, [get_cached_access_token] goes on to
    [get_access_token]: after the account query its log continues with that
    of [get_access_token], which holds the interactive call, and its result,
    token or exception, is the one of [get_access_token]. *)
Theorem no_account_falls_through_to_interactive :
  env_get_accounts E configured_app = Ret [] ->
  result_of (get_cached_access_token E) = result_of (get_access_token E)
  /\ log_of (get_cached_access_token E) =
       ([MsalNewApp configured_app; MsalGetAccounts]
        ++ log_of (get_access_token E))%list
  /\ interactive_invoked (log_of (get_cached_access_token E)) = true
  /\ silent_invoked (log_of (get_cached_access_token E)) = false.
Proof.
  intros Ha.
  assert (Hrun : get_cached_access_token E =
    (result_of (get_access_token E),
     ([MsalNewApp configured_app; MsalGetAccounts]
      ++ log_of (get_access_token E))%list)).
  { auth_prefix. rewrite Ha.
    destruct (get_access_token E) as [r log]. reflexivity. }
  rewrite Hrun, get_access_token_log. repeat split; reflexivity.
Qed.

(** C9: a cached account whose silent reauthentication returns a true
    (non-empty) dictionary without ["access_token"] makes
    [get_cached_access_token] raise [KeyError]; the interactive flow is not
    started. *)
Theorem silent_result_without_token_raises_KeyError
    (account : pydict) (others : list pydict) (d : pydict) :
  env_get_accounts E configured_app = Ret (account :: others) ->
  env_acquire_token_silent E configured_app SCOPE account = Ret (Some d) ->
  truthy (Some d) = true ->
  dict_lookup "access_token" d = None ->
  get_cached_access_token E =
    (Raise (KeyError "access_token"),
     [MsalNewApp configured_app; MsalGetAccounts; MsalSilent SCOPE account])
  /\ interactive_invoked (log_of (get_cached_access_token E)) = false.
Proof.
  intros Ha Hs Hne Hk.
  assert (Hrun : get_cached_access_token E =
    (Raise (KeyError "access_token"),
     [MsalNewApp configured_app; MsalGetAccounts; MsalSilent SCOPE account])).
  { auth_prefix. rewrite Ha, Hs.
    rewrite Hne. unfold lift, opt_getitem, dict_getitem.
    rewrite Hk. reflexivity. }
  split; [ exact Hrun | rewrite Hrun; reflexivity ].
Qed.

(** *** The mail gateway client *)

(** C3: when the token is acquired and the API answers the request with
    202, [send_email] returns normally, displays the success line only, and
    issues one HTTP request: the POST to [/me/sendMail] with the two headers
    and the payload of the specification. *)
Theorem send_email_accepted
    (recipient subject body : pyval) (r : pydict) (tok : pyval)
    (resp : response) :
  env_acquire_token_interactive E configured_app SCOPE REDIRECT_URI = Ret r ->
  dict_lookup "access_token" r = Some tok ->
  env_post E "https://graph.microsoft.com/v1.0/me/sendMail"
    [("Authorization", "Bearer " ++ py_str py_repr tok);
     ("Content-Type", "application/json")]
    (expected_payload recipient subject body) = Ret resp ->
  status_code resp = 202%Z ->
  result_of (send_email py_repr E recipient subject body) = Ret tt
  /\ ic_lines (log_of (send_email py_repr E recipient subject body)) =
       ["email sent successfully"]
  /\ http_requests (log_of (send_email py_repr E recipient subject body)) =
       [HttpPost "https://graph.microsoft.com/v1.0/me/sendMail"
          [("Authorization", "Bearer " ++ py_str py_repr tok);
           ("Content-Type", "application/json")]
          (PDict
             [("message",
               PDict
                 [("subject", subject);
                  ("body",
                   PDict [("contentType", PStr "Text"); ("content", body)]);
                  ("toRecipients",
                   PList [PDict [("emailAddress",
                                  PDict [("address", recipient)])]])]);
              ("saveToSentItems", PStr "true")])].
Proof.
  intros Hi Hk Hp Hs.
  unfold send_email.
  rewrite (bind_log _ _ _ _ (get_access_token_ok r tok Hi Hk)).
  unfold call, bind, emit. cbv zeta.
  change (env_post E _ _ _) with
    (env_post E "https://graph.microsoft.com/v1.0/me/sendMail"
       [("Authorization", "Bearer " ++ py_str py_repr tok);
        ("Content-Type", "application/json")]
       (expected_payload recipient subject body)).
  rewrite Hp, Hs. repeat split; reflexivity.
Qed.

(** C4: when the token is acquired and the API answers the request with a
    status other than 202, [send_email] still returns normally; the one line
    it displays carries the status code and the response text. *)
Theorem send_email_rejected_is_reported
    (recipient subject body : pyval) (r : pydict) (tok : pyval)
    (resp : response) :
  env_acquire_token_interactive E configured_app SCOPE REDIRECT_URI = Ret r ->
  dict_lookup "access_token" r = Some tok ->
  env_post E "https://graph.microsoft.com/v1.0/me/sendMail"
    [("Authorization", "Bearer " ++ py_str py_repr tok);
     ("Content-Type", "application/json")]
    (expected_payload recipient subject body) = Ret resp ->
  status_code resp <> 202%Z ->
  result_of (send_email py_repr E recipient subject body) = Ret tt
  /\ ic_lines (log_of (send_email py_repr E recipient subject body)) =
       ["error sending email: " ++ str_of_int (status_code resp) ++ ", "
        ++ text resp].
Proof.
  intros Hi Hk Hp Hs.
  unfold send_email.
  rewrite (bind_log _ _ _ _ (get_access_token_ok r tok Hi Hk)).
  unfold call, bind, emit. cbv zeta.
  change (env_post E _ _ _) with
    (env_post E "https://graph.microsoft.com/v1.0/me/sendMail"
       [("Authorization", "Bearer " ++ py_str py_repr tok);
        ("Content-Type", "application/json")]
       (expected_payload recipient subject body)).
  rewrite Hp. apply Z.eqb_neq in Hs. rewrite Hs. split; reflexivity.
Qed.

(** C7: when the interactive flow answers with a dictionary that has no
    ["access_token"], [get_access_token] raises an exception whose arguments
    are the fixed message and the provider's ["error_description"]; both mail
    operations end with that very exception, before any HTTP request and
    without displaying anything. *)
Theorem authentication_failure_propagates (r : pydict) :
  env_acquire_token_interactive E configured_app SCOPE REDIRECT_URI = Ret r ->
  dict_lookup "access_token" r = None ->
  let error :=
    PyException [PStr "could not authenticate: ";
                 dict_get r "error_description" PNone] in
  (forall v, dict_lookup "error_description" r = Some v ->
             error = PyException [PStr "could not authenticate: "; v])
  /\ result_of (get_access_token E) = Raise error
  /\ (forall recipient subject body,
        send_email py_repr E recipient subject body =
          (Raise error,
           [MsalNewApp configured_app; MsalInteractive SCOPE REDIRECT_URI]))
  /\ get_inbox_emails py_repr E =
       (Raise error,
        [MsalNewApp configured_app; MsalInteractive SCOPE REDIRECT_URI]).
Proof.
  intros Hi Hk error.
  pose proof (get_access_token_no_token r Hi Hk) as Hrun.
  fold error in Hrun.
  split; [ | split; [ | split ] ].
  - intros v Hv. unfold error, dict_get. rewrite Hv. reflexivity.
  - rewrite Hrun. reflexivity.
  - intros recipient subject body. unfold send_email.
    apply bind_raise. exact Hrun.
  - unfold get_inbox_emails. apply bind_raise. exact Hrun.
Qed.

(** The separator displayed after each message. *)
Lemma separator_line :
  str_repeat "-" 40 = "----------------------------------------".
Proof. reflexivity. Qed.

Lemma ic_lines_app (l1 l2 : list event) :
  ic_lines (l1 ++ l2) = (ic_lines l1 ++ ic_lines l2)%list.
Proof.
  induction l1 as [ | e l1 IH ]; [ reflexivity | ].
  destruct e; simpl; rewrite IH; reflexivity.
Qed.

Lemma ic_lines_displayed (lines : list string) :
  ic_lines (map Ic lines) = lines.
Proof.
  induction lines as [ | s lines IH ]; [ reflexivity | ].
  cbn [map ic_lines]. rewrite IH. reflexivity.
Qed.

Lemma http_requests_displayed (lines : list string) :
  http_requests (map Ic lines) = [].
Proof.
  induction lines as [ | s lines IH ]; [ reflexivity | exact IH ].
Qed.

(** One turn of the loop on a well-formed message displays its projection. *)
Lemma show_email_well_formed (m : pyval) (p : projection) :
  message_fields m = Some p ->
  show_email py_repr m = (Ret tt, map Ic (projection_lines py_repr p)).
Proof.
  unfold message_fields, show_email.
  destruct m as [ | | | | | d ]; try discriminate.
  cbn [py_getitem]. unfold dict_getitem.
  destruct (dict_lookup "from" d) as [ [ | | | | | f ] | ]; try discriminate.
  cbn [py_getitem lift bind]. unfold dict_getitem.
  destruct (dict_lookup "emailAddress" f) as [ [ | | | | | ea ] | ];
    try discriminate.
  cbn [py_getitem lift bind]. unfold dict_getitem.
  destruct (dict_lookup "address" ea) as [ a | ]; try discriminate.
  destruct (dict_lookup "subject" d) as [ sj | ]; try discriminate.
  destruct (dict_lookup "bodyPreview" d) as [ bp | ]; try discriminate.
  intros [= <-]. reflexivity.
Qed.

(** The loop over well-formed messages displays their projections, one
    after the other. *)
Lemma for_each_show_email (msgs : list pyval) :
  forall projs : list projection,
    map message_fields msgs = map Some projs ->
    for_each msgs (show_email py_repr) =
      (Ret tt, map Ic (flat_map (projection_lines py_repr) projs)).
Proof.
  induction msgs as [ | m msgs IH ]; intros [ | p projs ] Hmap;
    try discriminate Hmap.
  - reflexivity.
  - cbn [map] in Hmap. injection Hmap as Hm Hrest.
    cbn [for_each flat_map].
    rewrite (bind_log _ _ tt _ (show_email_well_formed m p Hm)).
    rewrite (IH projs Hrest). cbn [fst snd].
    rewrite map_app. reflexivity.
Qed.

Ltac inbox_prefix tok Hi Hk Hg :=
  unfold get_inbox_emails;
  rewrite (bind_log _ _ _ _ (get_access_token_ok _ _ Hi Hk));
  unfold call, bind, lift; cbv zeta;
  change (env_get E _ _) with
    (env_get E "https://graph.microsoft.com/v1.0/me/messages"
       [("Authorization", "Bearer " ++ py_str py_repr tok)]);
  rewrite Hg.

(** C5: when the token is acquired and the API answers the listing with 200
    and a JSON object whose [value] is a list of well-formed messages,
    [get_inbox_emails] returns normally and displays exactly the projections
    of these messages, one per message and in the order of the list; for the
    empty list it displays nothing. *)
Theorem inbox_messages_projected_in_order
    (r : pydict) (tok : pyval) (resp : response) (d : pydict)
    (msgs : list pyval) (projs : list projection) :
  env_acquire_token_interactive E configured_app SCOPE REDIRECT_URI = Ret r ->
  dict_lookup "access_token" r = Some tok ->
  env_get E "https://graph.microsoft.com/v1.0/me/messages"
    [("Authorization", "Bearer " ++ py_str py_repr tok)] = Ret resp ->
  status_code resp = 200%Z ->
  resp_json resp = Ret (PDict d) ->
  dict_lookup "value" d = Some (PList msgs) ->
  map message_fields msgs = map Some projs ->
  result_of (get_inbox_emails py_repr E) = Ret tt
  /\ length projs = length msgs
  /\ ic_lines (log_of (get_inbox_emails py_repr E)) =
       flat_map (projection_lines py_repr) projs
  /\ (msgs = [] -> ic_lines (log_of (get_inbox_emails py_repr E)) = []).
Proof.
  intros Hi Hk Hg Hs Hj Hv Hmap.
  assert (Hlen : length projs = length msgs).
  { rewrite <- (length_map Some projs), <- Hmap. apply length_map. }
  assert (Hrun : get_inbox_emails py_repr E =
    (Ret tt,
     ([MsalNewApp configured_app; MsalInteractive SCOPE REDIRECT_URI;
       HttpGet "https://graph.microsoft.com/v1.0/me/messages"
         [("Authorization", ("Bearer " ++ py_str py_repr tok)%string)]]
      ++ map Ic (flat_map (projection_lines py_repr) projs))%list)).
  { inbox_prefix tok Hi Hk Hg. rewrite Hs, Hj.
    cbn [Z.eqb Pos.eqb py_get]. unfold dict_get. rewrite Hv.
    cbn [py_iter]. rewrite (for_each_show_email msgs projs Hmap).
    reflexivity. }
  rewrite Hrun. unfold result_of, log_of. cbn [fst snd].
  rewrite ic_lines_app, ic_lines_displayed.
  repeat split; try assumption.
  intros ->. destruct projs; [ reflexivity | discriminate Hlen ].
Qed.

(** C6: when the token is acquired and the API answers the listing with a
    status other than 200, [get_inbox_emails] returns normally; the one line
    it displays carries the status code and the response text, and no line
    of a projection is displayed. *)
Theorem inbox_failure_is_reported
    (r : pydict) (tok : pyval) (resp : response) :
  env_acquire_token_interactive E configured_app SCOPE REDIRECT_URI = Ret r ->
  dict_lookup "access_token" r = Some tok ->
  env_get E "https://graph.microsoft.com/v1.0/me/messages"
    [("Authorization", "Bearer " ++ py_str py_repr tok)] = Ret resp ->
  status_code resp <> 200%Z ->
  result_of (get_inbox_emails py_repr E) = Ret tt
  /\ ic_lines (log_of (get_inbox_emails py_repr E)) =
       ["Error fetching emails: " ++ str_of_int (status_code resp) ++ ", "
        ++ text resp]
  /\ filter is_projection_line
        (ic_lines (log_of (get_inbox_emails py_repr E))) = [].
Proof.
  intros Hi Hk Hg Hs.
  inbox_prefix tok Hi Hk Hg. apply Z.eqb_neq in Hs. rewrite Hs.
  repeat split; reflexivity.
Qed.

(** C10: when the token is acquired and the API answers the listing with 200
    and a JSON object that has no [value], [get_inbox_emails] behaves as on
    an empty list: it returns normally, having displayed nothing. *)
Theorem inbox_without_value_is_empty
    (r : pydict) (tok : pyval) (resp : response) (d : pydict) :
  env_acquire_token_interactive E configured_app SCOPE REDIRECT_URI = Ret r ->
  dict_lookup "access_token" r = Some tok ->
  env_get E "https://graph.microsoft.com/v1.0/me/messages"
    [("Authorization", "Bearer " ++ py_str py_repr tok)] = Ret resp ->
  status_code resp = 200%Z ->
  resp_json resp = Ret (PDict d) ->
  dict_lookup "value" d = None ->
  get_inbox_emails py_repr E =
    (Ret tt,
     [MsalNewApp configured_app; MsalInteractive SCOPE REDIRECT_URI;
      HttpGet "https://graph.microsoft.com/v1.0/me/messages"
        [("Authorization", "Bearer " ++ py_str py_repr tok)]])
  /\ ic_lines (log_of (get_inbox_emails py_repr E)) = [].
Proof.
  intros Hi Hk Hg Hs Hj Hv.
  assert (Hrun : get_inbox_emails py_repr E =
    (Ret tt,
     [MsalNewApp configured_app; MsalInteractive SCOPE REDIRECT_URI;
      HttpGet "https://graph.microsoft.com/v1.0/me/messages"
        [("Authorization", "Bearer " ++ py_str py_repr tok)]])).
  { inbox_prefix tok Hi Hk Hg. rewrite Hs, Hj.
    cbn [Z.eqb Pos.eqb py_get]. unfold dict_get. rewrite Hv.
    reflexivity. }
  split; [ exact Hrun | rewrite Hrun; reflexivity ].
Qed.

(** For comparison: a 200 answer whose JSON is a list, not an object, has no
    [get] method, and the listing ends with [AttributeError]. *)
Lemma inbox_json_list_raises
    (r : pydict) (tok : pyval) (resp : response) (l : list pyval) :
  env_acquire_token_interactive E configured_app SCOPE REDIRECT_URI = Ret r ->
  dict_lookup "access_token" r = Some tok ->
  env_get E "https://graph.microsoft.com/v1.0/me/messages"
    [("Authorization", "Bearer " ++ py_str py_repr tok)] = Ret resp ->
  status_code resp = 200%Z ->
  resp_json resp = Ret (PList l) ->
  result_of (get_inbox_emails py_repr E) = Raise AttributeError.
Proof.
  intros Hi Hk Hg Hs Hj.
  inbox_prefix tok Hi Hk Hg. rewrite Hs, Hj. reflexivity.
Qed.

End Properties.

(** ** Closed instances *)

(** C1: the mail operations do not ask for a cached credential.  Where the
    identity provider holds a cached account whose silent reauthentication
    yields a token, [get_cached_access_token] returns that token without
    the interactive flow, yet [send_email] and [get_inbox_emails] start the
    interactive flow, never the silent one, and send the interactive token. *)
Theorem mail_operations_bypass_cached_token :
  get_cached_access_token env_cached =
    (Ret (PStr "cached-token"),
     [MsalNewApp configured_app; MsalGetAccounts;
      MsalSilent SCOPE sample_account])
  /\ send_email sample_repr env_cached (PStr "a@b.com") (PStr "S") (PStr "B") =
       (Ret tt,
        [MsalNewApp configured_app;
         MsalInteractive SCOPE REDIRECT_URI;
         HttpPost "https://graph.microsoft.com/v1.0/me/sendMail"
           [("Authorization", "Bearer fresh-token");
            ("Content-Type", "application/json")]
           (expected_payload (PStr "a@b.com") (PStr "S") (PStr "B"));
         Ic "email sent successfully"])
  /\ interactive_invoked (log_of (get_inbox_emails sample_repr env_cached))
       = true
  /\ silent_invoked (log_of (get_inbox_emails sample_repr env_cached)) = false
  /\ http_requests (log_of (get_inbox_emails sample_repr env_cached)) =
       [HttpGet "https://graph.microsoft.com/v1.0/me/messages"
          [("Authorization", "Bearer fresh-token")]].
Proof. repeat split; reflexivity. Qed.

Lemma cached_token_returned_without_interactive_witness :
  get_cached_access_token env_cached =
    (Ret (PStr "cached-token"),
     [MsalNewApp configured_app; MsalGetAccounts;
      MsalSilent SCOPE sample_account])
  /\ interactive_invoked (log_of (get_cached_access_token env_cached)) = false.
Proof.
  apply (cached_token_returned_without_interactive env_cached
           sample_account [] [("access_token", PStr "cached-token")]
           (PStr "cached-token"));
    reflexivity.
Defined.

Lemma no_account_falls_through_to_interactive_witness :
  result_of (get_cached_access_token env_denied) =
    result_of (get_access_token env_denied)
  /\ log_of (get_cached_access_token env_denied) =
       ([MsalNewApp configured_app; MsalGetAccounts]
        ++ log_of (get_access_token env_denied))%list
  /\ interactive_invoked (log_of (get_cached_access_token env_denied)) = true
  /\ silent_invoked (log_of (get_cached_access_token env_denied)) = false.
Proof.
  apply (no_account_falls_through_to_interactive env_denied); reflexivity.
Defined.

Lemma silent_result_without_token_raises_KeyError_witness :
  get_cached_access_token env_silent_error =
    (Raise (KeyError "access_token"),
     [MsalNewApp configured_app; MsalGetAccounts;
      MsalSilent SCOPE sample_account])
  /\ interactive_invoked (log_of (get_cached_access_token env_silent_error))
       = false.
Proof.
  apply (silent_result_without_token_raises_KeyError env_silent_error
           sample_account [] [("error", PStr "invalid_grant")]);
    reflexivity.
Defined.

Lemma send_email_accepted_witness :
  result_of (send_email sample_repr env_cached
               (PStr "a@b.com") (PStr "S") (PStr "B")) = Ret tt
  /\ ic_lines (log_of (send_email sample_repr env_cached
                         (PStr "a@b.com") (PStr "S") (PStr "B"))) =
       ["email sent successfully"]
  /\ http_requests (log_of (send_email sample_repr env_cached
                              (PStr "a@b.com") (PStr "S") (PStr "B"))) =
       [HttpPost "https://graph.microsoft.com/v1.0/me/sendMail"
          [("Authorization", "Bearer fresh-token");
           ("Content-Type", "application/json")]
          (PDict
             [("message",
               PDict
                 [("subject", PStr "S");
                  ("body",
                   PDict [("contentType", PStr "Text");
                          ("content", PStr "B")]);
                  ("toRecipients",
                   PList [PDict [("emailAddress",
                                  PDict [("address", PStr "a@b.com")])]])]);
              ("saveToSentItems", PStr "true")])].
Proof.
  apply (send_email_accepted sample_repr env_cached
           (PStr "a@b.com") (PStr "S") (PStr "B")
           [("access_token", PStr "fresh-token")] (PStr "fresh-token")
           (sample_response 202 "" (Raise (LibraryError "JSONDecodeError"))));
    reflexivity.
Defined.

Lemma send_email_rejected_is_reported_witness :
  result_of (send_email sample_repr env_silent_error
               (PStr "a@b.com") (PStr "S") (PStr "B")) = Ret tt
  /\ ic_lines (log_of (send_email sample_repr env_silent_error
                         (PStr "a@b.com") (PStr "S") (PStr "B"))) =
       ["error sending email: 400, Bad Request"].
Proof.
  apply (send_email_rejected_is_reported sample_repr env_silent_error
           (PStr "a@b.com") (PStr "S") (PStr "B")
           [("access_token", PStr "fresh-token")] (PStr "fresh-token")
           (sample_response 400 "Bad Request"
              (Raise (LibraryError "JSONDecodeError"))));
    try reflexivity.
  simpl. lia.
Defined.

Lemma authentication_failure_propagates_witness :
  let error :=
    PyException [PStr "could not authenticate: ";
                 PStr "consent was denied"] in
  (forall v,
      dict_lookup "error_description"
        [("error", PStr "access_denied");
         ("error_description", PStr "consent was denied")] = Some v ->
      error = PyException [PStr "could not authenticate: "; v])
  /\ result_of (get_access_token env_denied) = Raise error
  /\ (forall recipient subject body,
        send_email sample_repr env_denied recipient subject body =
          (Raise error,
           [MsalNewApp configured_app; MsalInteractive SCOPE REDIRECT_URI]))
  /\ get_inbox_emails sample_repr env_denied =
       (Raise error,
        [MsalNewApp configured_app; MsalInteractive SCOPE REDIRECT_URI]).
Proof.
  apply (authentication_failure_propagates sample_repr env_denied
           [("error", PStr "access_denied");
            ("error_description", PStr "consent was denied")]);
    reflexivity.
Defined.

Lemma inbox_messages_projected_in_order_witness :
  result_of (get_inbox_emails sample_repr env_cached) = Ret tt
  /\ length [(PStr "ann@example.org", PStr "first", PStr "hello");
             (PStr "bob@example.org", PStr "second", PStr "bye")] =
       length two_messages
  /\ ic_lines (log_of (get_inbox_emails sample_repr env_cached)) =
       ["From: ann@example.org"; "Subject: first"; "Body: hello";
        "----------------------------------------";
        "From: bob@example.org"; "Subject: second"; "Body: bye";
        "----------------------------------------"]
  /\ (two_messages = [] ->
      ic_lines (log_of (get_inbox_emails sample_repr env_cached)) = []).
Proof.
  apply (inbox_messages_projected_in_order sample_repr env_cached
           [("access_token", PStr "fresh-token")] (PStr "fresh-token")
           (sample_response 200 "{...}"
              (Ret (PDict [("value", PList two_messages)])))
           [("value", PList two_messages)] two_messages
           [(PStr "ann@example.org", PStr "first", PStr "hello");
            (PStr "bob@example.org", PStr "second", PStr "bye")]);
    reflexivity.
Defined.

Lemma inbox_failure_is_reported_witness :
  result_of (get_inbox_emails sample_repr env_unauthorized) = Ret tt
  /\ ic_lines (log_of (get_inbox_emails sample_repr env_unauthorized)) =
       ["Error fetching emails: 401, Unauthorized"]
  /\ filter is_projection_line
       (ic_lines (log_of (get_inbox_emails sample_repr env_unauthorized))) = [].
Proof.
  apply (inbox_failure_is_reported sample_repr env_unauthorized
           [("access_token", PStr "fresh-token")] (PStr "fresh-token")
           (sample_response 401 "Unauthorized"
              (Raise (LibraryError "JSONDecodeError"))));
    try reflexivity.
  simpl. lia.
Defined.

Lemma inbox_without_value_is_empty_witness :
  get_inbox_emails sample_repr env_silent_error =
    (Ret tt,
     [MsalNewApp configured_app; MsalInteractive SCOPE REDIRECT_URI;
      HttpGet "https://graph.microsoft.com/v1.0/me/messages"
        [("Authorization", "Bearer fresh-token")]])
  /\ ic_lines (log_of (get_inbox_emails sample_repr env_silent_error)) = [].
Proof.
  apply (inbox_without_value_is_empty sample_repr env_silent_error
           [("access_token", PStr "fresh-token")] (PStr "fresh-token")
           (sample_response 200 "{}" (Ret (PDict []))) []);
    reflexivity.
Defined.

(** ** Further properties: the token provider *)

Section TokenProvider.

Variable E : env.

Ltac cached_prefix :=
  unfold get_cached_access_token, ConfidentialClientApplication,
    call, emit, ret, bind;
  fold configured_app.

(** X1: with a cached account, the answer of the silent call alone decides
    whether the interactive flow runs: it runs exactly when that answer is
    [None] or an empty dictionary, and then the result is the one of
    [get_access_token] and the log continues with its log. *)
Theorem silent_answer_decides_interactive
    (account : pydict) (others : list pydict) (answer : option pydict) :
  env_get_accounts E configured_app = Ret (account :: others) ->
  env_acquire_token_silent E configured_app SCOPE account = Ret answer ->
  interactive_invoked (log_of (get_cached_access_token E)) =
    negb (truthy answer)
  /\ (truthy answer = false ->
      result_of (get_cached_access_token E) = result_of (get_access_token E)
      /\ log_of (get_cached_access_token E) =
           ([MsalNewApp configured_app; MsalGetAccounts;
             MsalSilent SCOPE account]
            ++ log_of (get_access_token E))%list).
Proof.
  intros Ha Hs.
  destruct (truthy answer) eqn:Ht.
  - split; [ | discriminate ].
    cached_prefix. rewrite Ha, Hs, Ht. unfold lift.
    destruct (opt_getitem answer "access_token"); reflexivity.
  - assert (Hrun : get_cached_access_token E =
      (result_of (get_access_token E),
       ([MsalNewApp configured_app; MsalGetAccounts;
         MsalSilent SCOPE account]
        ++ log_of (get_access_token E))%list)).
    { cached_prefix. rewrite Ha, Hs, Ht.
      destruct (get_access_token E) as [ r log ]. reflexivity. }
    rewrite Hrun, get_access_token_log.
    repeat split; reflexivity.
Qed.

(** X2: only the first cached account is ever tried: whatever the silent
    call and the interactive flow answer, the log holds one silent call, for
    the first account of the list. *)
Theorem only_first_account_is_tried
    (account : pydict) (others : list pydict) :
  env_get_accounts E configured_app = Ret (account :: others) ->
  filter is_silent (log_of (get_cached_access_token E)) =
    [MsalSilent SCOPE account].
Proof.
  intros Ha.
  cached_prefix. rewrite Ha.
  destruct (env_acquire_token_silent E configured_app SCOPE account)
    as [ answer | e ]; [ | reflexivity ].
  destruct (truthy answer).
  - unfold lift. destruct (opt_getitem answer "access_token"); reflexivity.
  - pose proof (get_access_token_log E) as Hlog.
    destruct (get_access_token E) as [ r log ].
    unfold log_of in Hlog. cbn [snd] in Hlog. subst log. reflexivity.
Qed.

(** X3: an exception raised by the silent call is not recovered by the
    interactive flow: [get_cached_access_token] ends with it. *)
Theorem silent_exception_is_not_recovered
    (account : pydict) (others : list pydict) (e : exn) :
  env_get_accounts E configured_app = Ret (account :: others) ->
  env_acquire_token_silent E configured_app SCOPE account = Raise e ->
  get_cached_access_token E =
    (Raise e,
     [MsalNewApp configured_app; MsalGetAccounts; MsalSilent SCOPE account])
  /\ interactive_invoked (log_of (get_cached_access_token E)) = false.
Proof.
  intros Ha Hs.
  assert (Hrun : get_cached_access_token E =
    (Raise e,
     [MsalNewApp configured_app; MsalGetAccounts; MsalSilent SCOPE account])).
  { cached_prefix. rewrite Ha, Hs. reflexivity. }
  split; [ exact Hrun | rewrite Hrun; reflexivity ].
Qed.


End TokenProvider.

(** ** Further properties: the mail gateway client *)

Section MailGateway.

Variable py_repr : pyval -> string.
Variable E : env.

Ltac with_token r tok Hi Hk :=
  rewrite (bind_log _ _ _ _ (get_access_token_ok E r tok Hi Hk));
  unfold call, bind, lift, emit; cbv zeta.

Ltac sendMail_request tok recipient subject body :=
  change (env_post E _ _ _) with
    (env_post E "https://graph.microsoft.com/v1.0/me/sendMail"
       [("Authorization", "Bearer " ++ py_str py_repr tok);
        ("Content-Type", "application/json")]
       (expected_payload recipient subject body)).

Ltac messages_request tok :=
  change (env_get E _ _) with
    (env_get E "https://graph.microsoft.com/v1.0/me/messages"
       [("Authorization", "Bearer " ++ py_str py_repr tok)]).

(** X5: an exception raised inside the interactive flow ends both mail
    operations: no HTTP request is issued and nothing is displayed. *)
Theorem interactive_exception_propagates (e : exn) :
  env_acquire_token_interactive E configured_app SCOPE REDIRECT_URI = Raise e ->
  (forall recipient subject body,
      send_email py_repr E recipient subject body =
        (Raise e,
         [MsalNewApp configured_app; MsalInteractive SCOPE REDIRECT_URI]))
  /\ get_inbox_emails py_repr E =
       (Raise e,
        [MsalNewApp configured_app; MsalInteractive SCOPE REDIRECT_URI]).
Proof.
  intros Hi.
  assert (Hrun : get_access_token E =
    (Raise e,
     [MsalNewApp configured_app; MsalInteractive SCOPE REDIRECT_URI])).
  { unfold get_access_token, ConfidentialClientApplication,
      call, emit, ret, bind.
    fold configured_app. rewrite Hi. reflexivity. }
  split.
  - intros recipient subject body. unfold send_email.
    apply bind_raise. exact Hrun.
  - unfold get_inbox_emails. apply bind_raise. exact Hrun.
Qed.

(** X6: an exception raised by the POST itself (no answer from the API) is
    not caught: [send_email] ends with it, after the request and without
    displaying anything. *)
Theorem send_email_transport_error_propagates
    (recipient subject body : pyval) (r : pydict) (tok : pyval) (e : exn) :
  env_acquire_token_interactive E configured_app SCOPE REDIRECT_URI = Ret r ->
  dict_lookup "access_token" r = Some tok ->
  env_post E "https://graph.microsoft.com/v1.0/me/sendMail"
    [("Authorization", "Bearer " ++ py_str py_repr tok);
     ("Content-Type", "application/json")]
    (expected_payload recipient subject body) = Raise e ->
  result_of (send_email py_repr E recipient subject body) = Raise e
  /\ ic_lines (log_of (send_email py_repr E recipient subject body)) = []
  /\ length (http_requests
               (log_of (send_email py_repr E recipient subject body))) = 1%nat.
Proof.
  intros Hi Hk Hp.
  unfold send_email. with_token r tok Hi Hk.
  sendMail_request tok recipient subject body.
  rewrite Hp. repeat split; reflexivity.
Qed.

(** X7: a 200 answer whose body cannot be decoded as JSON makes
    [get_inbox_emails] end with the decoding error; since the status test
    passed, no line at all is displayed, not even the error line. *)
Theorem inbox_undecodable_body_raises
    (r : pydict) (tok : pyval) (resp : response) (e : exn) :
  env_acquire_token_interactive E configured_app SCOPE REDIRECT_URI = Ret r ->
  dict_lookup "access_token" r = Some tok ->
  env_get E "https://graph.microsoft.com/v1.0/me/messages"
    [("Authorization", "Bearer " ++ py_str py_repr tok)] = Ret resp ->
  status_code resp = 200%Z ->
  resp_json resp = Raise e ->
  result_of (get_inbox_emails py_repr E) = Raise e
  /\ ic_lines (log_of (get_inbox_emails py_repr E)) = [].
Proof.
  intros Hi Hk Hg Hs Hj.
  unfold get_inbox_emails. with_token r tok Hi Hk.
  messages_request tok. rewrite Hg, Hs, Hj. split; reflexivity.
Qed.

(** X8: the default of [.get("value", [])] serves a missing key only.  A
    [value] that is present but null (or a number, or a boolean) reaches the
    loop, which raises [TypeError]; nothing is displayed. *)
Theorem inbox_scalar_value_raises_TypeError
    (r : pydict) (tok : pyval) (resp : response) (d : pydict) (v : pyval) :
  env_acquire_token_interactive E configured_app SCOPE REDIRECT_URI = Ret r ->
  dict_lookup "access_token" r = Some tok ->
  env_get E "https://graph.microsoft.com/v1.0/me/messages"
    [("Authorization", "Bearer " ++ py_str py_repr tok)] = Ret resp ->
  status_code resp = 200%Z ->
  resp_json resp = Ret (PDict d) ->
  dict_lookup "value" d = Some v ->
  is_scalar v = true ->
  result_of (get_inbox_emails py_repr E) = Raise TypeError
  /\ ic_lines (log_of (get_inbox_emails py_repr E)) = [].
Proof.
  intros Hi Hk Hg Hs Hj Hv Hscalar.
  unfold get_inbox_emails. with_token r tok Hi Hk.
  messages_request tok. rewrite Hg, Hs, Hj.
  cbn [Z.eqb Pos.eqb py_get]. unfold dict_get. rewrite Hv.
  destruct v; try discriminate Hscalar; split; reflexivity.
Qed.

(** The loop stops at the first message whose turn raises: what the
    well-formed messages before it displayed stays displayed, the messages
    after it are not looked at. *)
Lemma for_each_stops_at_raise
    (bad : pyval) (rest : list pyval) (e : exn) (shown : list event)
    (good : list pyval) :
  forall projs : list projection,
    map message_fields good = map Some projs ->
    show_email py_repr bad = (Raise e, shown) ->
    for_each (good ++ bad :: rest) (show_email py_repr) =
      (Raise e,
       (map Ic (flat_map (projection_lines py_repr) projs) ++ shown)%list).
Proof.
  induction good as [ | m good IH ]; intros [ | p projs ] Hmap Hbad;
    try discriminate Hmap.
  - cbn [app for_each flat_map map]. apply bind_raise. exact Hbad.
  - cbn [map] in Hmap. injection Hmap as Hm Hrest.
    cbn [app for_each flat_map].
    rewrite (bind_log _ _ tt _ (show_email_well_formed py_repr m p Hm)).
    rewrite (IH projs Hrest Hbad). cbn [fst snd].
    rewrite map_app, app_assoc. reflexivity.
Qed.

(** X9: a message without ["from"] stops the listing with [KeyError]: the
    projections of the well-formed messages before it are displayed, in
    order, and nothing of that message or of the ones after it. *)
Theorem inbox_stops_at_message_without_sender
    (r : pydict) (tok : pyval) (resp : response) (d : pydict)
    (good : list pyval) (projs : list projection)
    (bad : pydict) (rest : list pyval) :
  env_acquire_token_interactive E configured_app SCOPE REDIRECT_URI = Ret r ->
  dict_lookup "access_token" r = Some tok ->
  env_get E "https://graph.microsoft.com/v1.0/me/messages"
    [("Authorization", "Bearer " ++ py_str py_repr tok)] = Ret resp ->
  status_code resp = 200%Z ->
  resp_json resp = Ret (PDict d) ->
  dict_lookup "value" d = Some (PList (good ++ PDict bad :: rest)) ->
  map message_fields good = map Some projs ->
  dict_lookup "from" bad = None ->
  result_of (get_inbox_emails py_repr E) = Raise (KeyError "from")
  /\ ic_lines (log_of (get_inbox_emails py_repr E)) =
       flat_map (projection_lines py_repr) projs.
Proof.
  intros Hi Hk Hg Hs Hj Hv Hmap Hfrom.
  assert (Hbad : show_email py_repr (PDict bad) = (Raise (KeyError "from"), [])).
  { unfold show_email. cbn [py_getitem]. unfold dict_getitem.
    rewrite Hfrom. reflexivity. }
  unfold get_inbox_emails. with_token r tok Hi Hk.
  messages_request tok. rewrite Hg, Hs, Hj.
  cbn [Z.eqb Pos.eqb py_get]. unfold dict_get. rewrite Hv. cbn [py_iter].
  rewrite (for_each_stops_at_raise (PDict bad) rest _ _ good projs Hmap Hbad).
  unfold result_of, log_of. cbn [fst snd app ic_lines].
  rewrite app_nil_r, ic_lines_displayed. split; reflexivity.
Qed.

(** X10: the fields of a message are displayed as they are read.  A message
    that has a sender address but no ["subject"] gets its [From:] line
    displayed before the listing stops with [KeyError]. *)
Theorem inbox_displays_sender_before_missing_subject
    (r : pydict) (tok : pyval) (resp : response) (d : pydict)
    (good : list pyval) (projs : list projection)
    (bad f ea : pydict) (address : pyval) (rest : list pyval) :
  env_acquire_token_interactive E configured_app SCOPE REDIRECT_URI = Ret r ->
  dict_lookup "access_token" r = Some tok ->
  env_get E "https://graph.microsoft.com/v1.0/me/messages"
    [("Authorization", "Bearer " ++ py_str py_repr tok)] = Ret resp ->
  status_code resp = 200%Z ->
  resp_json resp = Ret (PDict d) ->
  dict_lookup "value" d = Some (PList (good ++ PDict bad :: rest)) ->
  map message_fields good = map Some projs ->
  dict_lookup "from" bad = Some (PDict f) ->
  dict_lookup "emailAddress" f = Some (PDict ea) ->
  dict_lookup "address" ea = Some address ->
  dict_lookup "subject" bad = None ->
  result_of (get_inbox_emails py_repr E) = Raise (KeyError "subject")
  /\ ic_lines (log_of (get_inbox_emails py_repr E)) =
       (flat_map (projection_lines py_repr) projs
        ++ [("From: " ++ py_str py_repr address)%string])%list.
Proof.
  intros Hi Hk Hg Hs Hj Hv Hmap Hfrom Hea Haddr Hsubj.
  assert (Hbad : show_email py_repr (PDict bad) =
    (Raise (KeyError "subject"), [Ic ("From: " ++ py_str py_repr address)])).
  { unfold show_email. cbn [py_getitem]. unfold dict_getitem.
    rewrite Hfrom. cbn [lift bind py_getitem]. unfold dict_getitem.
    rewrite Hea. cbn [lift bind py_getitem]. unfold dict_getitem.
    rewrite Haddr, Hsubj. reflexivity. }
  unfold get_inbox_emails. with_token r tok Hi Hk.
  messages_request tok. rewrite Hg, Hs, Hj.
  cbn [Z.eqb Pos.eqb py_get]. unfold dict_get. rewrite Hv. cbn [py_iter].
  rewrite (for_each_stops_at_raise (PDict bad) rest _ _ good projs Hmap Hbad).
  unfold result_of, log_of. cbn [fst snd].
  split; [ reflexivity | ].
  change (ic_lines
            (map Ic (flat_map (projection_lines py_repr) projs)
             ++ [Ic ("From: " ++ py_str py_repr address)%string])%list =
          (flat_map (projection_lines py_repr) projs
           ++ [("From: " ++ py_str py_repr address)%string])%list).
  rewrite ic_lines_app, ic_lines_displayed. reflexivity.
Qed.

(** *** What the operations never do *)








End MailGateway.

(** ** Further properties: the entry point *)

Section EntryPoint.

Variable py_repr : pyval -> string.
Variables E1 E2 : env.


(** X13: when the token acquisition of the send fails, the script ends
    there: the listing is never started, no HTTP request is issued. *)
Theorem main_stops_when_authentication_fails (r : pydict) :
  env_acquire_token_interactive E1 configured_app SCOPE REDIRECT_URI = Ret r ->
  dict_lookup "access_token" r = None ->
  main py_repr E1 E2 =
    (Raise (PyException [PStr "could not authenticate: ";
                         dict_get r "error_description" PNone]),
     [MsalNewApp configured_app; MsalInteractive SCOPE REDIRECT_URI]).
Proof.
  intros Hi Hk.
  unfold main. apply bind_raise.
  unfold send_email. apply bind_raise.
  exact (get_access_token_no_token E1 r Hi Hk).
Qed.


End EntryPoint.

(** ** Closed instances of the further properties *)

Lemma silent_answer_decides_interactive_witness :
  interactive_invoked (log_of (get_cached_access_token env_silent_miss)) = true
  /\ (truthy None = false ->
      result_of (get_cached_access_token env_silent_miss) =
        Ret (PStr "fresh-token")
      /\ log_of (get_cached_access_token env_silent_miss) =
           [MsalNewApp configured_app; MsalGetAccounts;
            MsalSilent SCOPE sample_account;
            MsalNewApp configured_app; MsalInteractive SCOPE REDIRECT_URI]).
Proof.
  apply (silent_answer_decides_interactive env_silent_miss sample_account
           [[("username", PStr "other@example.org")]] None);
    reflexivity.
Defined.

Lemma only_first_account_is_tried_witness :
  filter is_silent (log_of (get_cached_access_token env_silent_miss)) =
    [MsalSilent SCOPE sample_account].
Proof.
  apply (only_first_account_is_tried env_silent_miss sample_account
           [[("username", PStr "other@example.org")]]);
    reflexivity.
Defined.

Lemma silent_exception_is_not_recovered_witness :
  get_cached_access_token env_offline =
    (Raise (LibraryError "ConnectionError"),
     [MsalNewApp configured_app; MsalGetAccounts;
      MsalSilent SCOPE sample_account])
  /\ interactive_invoked (log_of (get_cached_access_token env_offline)) = false.
Proof.
  apply (silent_exception_is_not_recovered env_offline sample_account []
           (LibraryError "ConnectionError"));
    reflexivity.
Defined.

Lemma interactive_exception_propagates_witness :
  (forall recipient subject body,
      send_email sample_repr env_cancelled recipient subject body =
        (Raise (LibraryError "TimeoutError"),
         [MsalNewApp configured_app; MsalInteractive SCOPE REDIRECT_URI]))
  /\ get_inbox_emails sample_repr env_cancelled =
       (Raise (LibraryError "TimeoutError"),
        [MsalNewApp configured_app; MsalInteractive SCOPE REDIRECT_URI]).
Proof.
  apply (interactive_exception_propagates sample_repr env_cancelled
           (LibraryError "TimeoutError"));
    reflexivity.
Defined.

Lemma send_email_transport_error_propagates_witness :
  result_of (send_email sample_repr env_offline
               (PStr "a@b.com") (PStr "S") (PStr "B")) =
    Raise (LibraryError "ConnectionError")
  /\ ic_lines (log_of (send_email sample_repr env_offline
                         (PStr "a@b.com") (PStr "S") (PStr "B"))) = []
  /\ length (http_requests
               (log_of (send_email sample_repr env_offline
                          (PStr "a@b.com") (PStr "S") (PStr "B")))) = 1%nat.
Proof.
  apply (send_email_transport_error_propagates sample_repr env_offline
           (PStr "a@b.com") (PStr "S") (PStr "B")
           [("access_token", PStr "fresh-token")] (PStr "fresh-token")
           (LibraryError "ConnectionError"));
    reflexivity.
Defined.

Lemma inbox_undecodable_body_raises_witness :
  result_of (get_inbox_emails sample_repr env_offline) =
    Raise (LibraryError "JSONDecodeError")
  /\ ic_lines (log_of (get_inbox_emails sample_repr env_offline)) = [].
Proof.
  apply (inbox_undecodable_body_raises sample_repr env_offline
           [("access_token", PStr "fresh-token")] (PStr "fresh-token")
           (sample_response 200 "<html>"
              (Raise (LibraryError "JSONDecodeError")))
           (LibraryError "JSONDecodeError"));
    reflexivity.
Defined.

Lemma inbox_scalar_value_raises_TypeError_witness :
  result_of (get_inbox_emails sample_repr env_silent_miss) = Raise TypeError
  /\ ic_lines (log_of (get_inbox_emails sample_repr env_silent_miss)) = [].
Proof.
  apply (inbox_scalar_value_raises_TypeError sample_repr env_silent_miss
           [("access_token", PStr "fresh-token")] (PStr "fresh-token")
           (sample_response 200 "{...}" (Ret (PDict [("value", PNone)])))
           [("value", PNone)] PNone);
    reflexivity.
Defined.

Lemma inbox_stops_at_message_without_sender_witness :
  result_of (get_inbox_emails sample_repr
               (env_inbox (two_messages
                           ++ PDict message_without_sender :: two_messages)))
    = Raise (KeyError "from")
  /\ ic_lines (log_of (get_inbox_emails sample_repr
                         (env_inbox (two_messages
                                     ++ PDict message_without_sender
                                        :: two_messages)))) =
       ["From: ann@example.org"; "Subject: first"; "Body: hello";
        "----------------------------------------";
        "From: bob@example.org"; "Subject: second"; "Body: bye";
        "----------------------------------------"].
Proof.
  apply (inbox_stops_at_message_without_sender sample_repr
           (env_inbox (two_messages
                       ++ PDict message_without_sender :: two_messages))
           [("access_token", PStr "fresh-token")] (PStr "fresh-token")
           (sample_response 200 "{...}"
              (Ret (PDict [("value",
                            PList (two_messages
                                   ++ PDict message_without_sender
                                      :: two_messages))])))
           [("value", PList (two_messages
                             ++ PDict message_without_sender :: two_messages))]
           two_messages
           [(PStr "ann@example.org", PStr "first", PStr "hello");
            (PStr "bob@example.org", PStr "second", PStr "bye")]
           message_without_sender two_messages);
    reflexivity.
Defined.

Lemma inbox_displays_sender_before_missing_subject_witness :
  result_of (get_inbox_emails sample_repr
               (env_inbox ([] ++ PDict message_without_subject :: two_messages)))
    = Raise (KeyError "subject")
  /\ ic_lines (log_of (get_inbox_emails sample_repr
                         (env_inbox ([] ++ PDict message_without_subject
                                        :: two_messages)))) =
       ["From: eve@example.org"].
Proof.
  apply (inbox_displays_sender_before_missing_subject sample_repr
           (env_inbox ([] ++ PDict message_without_subject :: two_messages))
           [("access_token", PStr "fresh-token")] (PStr "fresh-token")
           (sample_response 200 "{...}"
              (Ret (PDict [("value",
                            PList ([] ++ PDict message_without_subject
                                      :: two_messages))])))
           [("value", PList ([] ++ PDict message_without_subject
                                :: two_messages))]
           [] [] message_without_subject
           [("emailAddress", PDict [("address", PStr "eve@example.org")])]
           [("address", PStr "eve@example.org")]
           (PStr "eve@example.org") two_messages);
    reflexivity.
Defined.

Lemma main_stops_when_authentication_fails_witness :
  main sample_repr env_denied env_cached =
    (Raise (PyException [PStr "could not authenticate: ";
                         PStr "consent was denied"]),
     [MsalNewApp configured_app; MsalInteractive SCOPE REDIRECT_URI]).
Proof.
  apply (main_stops_when_authentication_fails sample_repr env_denied env_cached
           [("error", PStr "access_denied");
            ("error_description", PStr "consent was denied")]);
    reflexivity.
Defined.

